(** * highlight-hero-creator: the two uploaders

    A shallow embedding of [instagram_uploader.py] and [youtube_uploader.py].
    Both functions are short, linear sequences of calls into external
    services.  A call into the outside world is an event of an interaction
    program; the environment (the remote platform, the client libraries) is
    an arbitrary handler over an arbitrary world state, and every run records
    the calls it issued, in order. *)

From Stdlib Require Import String Ascii List ZArith Bool Lia.
From Stdlib Require Import SpecFloat.
Import ListNotations.
Local Open Scope string_scope.
Local Open Scope Z_scope.
Set Warnings "-register-all".

(** ** Python values *)

Module Py.

(** The values that the JSON decoder produces and that the dict literals of
    the sources hold.  A dict is kept as its items in insertion order. *)
Inductive pyval : Type :=
| PNone
| PBool (b : bool)
| PInt (z : Z)
| PFloat (f : spec_float)
| PStr (s : string)
| PList (l : list pyval)
| PDict (items : list (string * pyval)).

Definition dict : Type := list (string * pyval).

(** [d.get(key)] on the items of a dict: [None] here is the missing key. *)
Fixpoint dict_get (d : dict) (key : string) : option pyval :=
  match d with
  | [] => None
  | (k, v) :: rest => if String.eqb k key then Some v else dict_get rest key
  end.

(** Truth value testing, as [not x] and [if x] use it. *)
Definition truthy (v : pyval) : bool :=
  match v with
  | PNone => false
  | PBool b => b
  | PInt z => negb (z =? 0)
  | PFloat (S754_zero _) => false
  | PFloat _ => true
  | PStr s => negb (String.eqb s "")
  | PList [] => false
  | PList (_ :: _) => true
  | PDict [] => false
  | PDict (_ :: _) => true
  end.

(** Exceptions.  [Exception args] is the builtin raised by the sources with
    its positional arguments; [JSONDecodeError], [ValueError] and
    [RecursionError] are what decoding a body can raise; the next three are
    raised by the operations on values; [External] stands for whatever else
    a call into a library raises (transport, authorization, file errors). *)
Inductive exn : Type :=
| Exception (args : list pyval)
| JSONDecodeError
| ValueError
| RecursionError
| AttributeError (attr : string)
| KeyError (key : string)
| TypeError
| External (what : string).

(** How a call ends. *)
Inductive result (R : Type) : Type :=
| Returned (r : R)
| Raised (e : exn).
Arguments Returned {R} r.
Arguments Raised {R} e.

(** [v.get(key)]: only a dict has the method; a missing key gives [None]. *)
Definition py_get (v : pyval) (key : string) : result pyval :=
  match v with
  | PDict d =>
      match dict_get d key with
      | Some x => Returned x
      | None => Returned PNone
      end
  | _ => Raised (AttributeError "get")
  end.

(** [v[key]] with a string key: a dict looks the key up, nothing else can be
    subscripted by a string. *)
Definition py_getitem (v : pyval) (key : string) : result pyval :=
  match v with
  | PDict d =>
      match dict_get d key with
      | Some x => Returned x
      | None => Raised (KeyError key)
      end
  | _ => Raised TypeError
  end.

End Py.
Import Py.

(** ** Programs that call the outside world *)

Module Prog.

Section Programs.
Variable E : Type -> Type.

(** A program returns, raises, or issues a call [ev] into the environment
    and goes on with its answer. *)
Inductive prog (R : Type) : Type :=
| Ret (r : R)
| Throw (e : exn)
| Vis {X : Type} (ev : E X) (k : X -> prog R).

Arguments Ret {R} r.
Arguments Throw {R} e.
Arguments Vis {R X} ev k.

Fixpoint bind {R S : Type} (m : prog R) (f : R -> prog S) : prog S :=
  match m with
  | Ret r => f r
  | Throw e => Throw e
  | Vis ev k => Vis ev (fun x => bind (k x) f)
  end.

(** A call whose answer is the value of the expression. *)
Definition call {X : Type} (ev : E X) : prog X := Vis ev (fun x => Ret x).

(** An operation on values that may raise. *)
Definition lift {R : Type} (r : result R) : prog R :=
  match r with
  | Returned x => Ret x
  | Raised e => Throw e
  end.

(** One call as the trace keeps it. *)
Inductive issued : Type :=
| Issued {X : Type} (ev : E X).

(** What a run leaves behind: how it ended, the world after it, and the
    calls it issued, oldest first. *)
Record outcome (W R : Type) : Type := Outcome {
  result_of : result R;
  world_of : W;
  trace_of : list issued
}.

Arguments Outcome {W R} _ _ _.
Arguments result_of {W R} _.
Arguments world_of {W R} _.
Arguments trace_of {W R} _.

(** The outcome [o] of the rest of a run, after call [c] was issued. *)
Definition after {W R : Type} (c : issued) (o : outcome W R) : outcome W R :=
  Outcome (result_of o) (world_of o) (c :: trace_of o).

Section Run.
Variable W : Type.

(** The environment: it answers a call or raises, and moves on. *)
Variable h : forall X : Type, E X -> W -> result X * W.

(** A call that raises ends the run: the sources catch nothing. *)
Fixpoint run {R : Type} (m : prog R) (w : W) : outcome W R :=
  match m with
  | Ret r => Outcome (Returned r) w []
  | Throw e => Outcome (Raised e) w []
  | Vis ev k =>
      match h _ ev w with
      | (Returned x, w') => after (Issued ev) (run (k x) w')
      | (Raised e, w') => Outcome (Raised e) w' [Issued ev]
      end
  end.

(** The environment answers [ev] with [x] in world [w] and moves to [w']. *)
Definition answers {X : Type} (w : W) (ev : E X) (x : X) (w' : W) : Prop :=
  h _ ev w = (Returned x, w').

End Run.
End Programs.

Arguments Ret {E R} r.
Arguments Throw {E R} e.
Arguments Vis {E R X} ev k.
Arguments bind {E R S} m f.
Arguments call {E X} ev.
Arguments lift {E R} r.
Arguments Issued {E X} ev.
Arguments Outcome {E W R} _ _ _.
Arguments result_of {E W R} _.
Arguments world_of {E W R} _.
Arguments trace_of {E W R} _.
Arguments after {E W R} c o.
Arguments run {E W} h {R} m w.
Arguments answers {E W} h {X} w ev x w'.

End Prog.
Import Prog.

Declare Scope prog_scope.
Delimit Scope prog_scope with prog.
Notation "x <- m ;; k" := (bind m (fun x => k))
  (at level 61, m at next level, right associativity) : prog_scope.
Local Open Scope prog_scope.

(** ** instagram_uploader.py *)

Module Instagram.

(** What the sources read of a [requests.Response]: the status code, the
    raw body, and the outcome of the call [res.json()]: the decoded body, or
    the exception the call raises ([JSONDecodeError] for a body that is not
    JSON, and what the decoder lets through otherwise, such as [ValueError]
    for an integer literal beyond the digit limit). *)
Record Response : Type := {
  status_code : Z;
  text : string;
  json : result pyval
}.

(** [requests.post(url, data=data)]. *)
Inductive requestsE : Type -> Type :=
| Post (url : string) (data : dict) : requestsE Response.

(** [res.json()]: nothing around the call catches what it raises. *)
Definition response_json (res : Response) : result pyval :=
  json res.

Definition upload_to_instagram (video_path access_token ig_user_id : string)
  : prog requestsE pyval :=
  let video_url :=
    "https://graph-video.facebook.com/v17.0/" ++ ig_user_id ++ "/media" in
  let params := [
    ("video_url", PStr video_path);
    ("caption", PStr "Posted via AI backend!");
    ("access_token", PStr access_token)
  ] in
  res <- call (Post video_url params) ;;
  body <- lift (response_json res) ;;
  container_id <- lift (py_get body "id") ;;
  if negb (truthy container_id) then
    Throw (Exception [PStr "Error creating container"; PStr (text res)])
  else
    let publish_url :=
      "https://graph.facebook.com/v17.0/" ++ ig_user_id ++ "/media_publish" in
    res <- call (Post publish_url [
      ("creation_id", container_id);
      ("access_token", PStr access_token)
    ]) ;;
    if negb (status_code res =? 200) then
      Throw (Exception [PStr "Error publishing video"; PStr (text res)])
    else
      lift (response_json res).

(** *** Vocabulary of the specification *)

Definition CreationError (body : string) : exn :=
  Exception [PStr "Error creating container"; PStr body].

Definition PublishError (body : string) : exn :=
  Exception [PStr "Error publishing video"; PStr body].

Definition media_url (ig_user_id : string) : string :=
  "https://graph-video.facebook.com/v17.0/" ++ ig_user_id ++ "/media".

Definition media_publish_url (ig_user_id : string) : string :=
  "https://graph.facebook.com/v17.0/" ++ ig_user_id ++ "/media_publish".

(** The container-creation request of a call. *)
Definition creation_request (video_path access_token ig_user_id : string)
  : requestsE Response :=
  Post (media_url ig_user_id)
       [("video_url", PStr video_path);
        ("caption", PStr "Posted via AI backend!");
        ("access_token", PStr access_token)].

(** The publish request for container [container_id]. *)
Definition publish_request (container_id : pyval)
    (access_token ig_user_id : string) : requestsE Response :=
  Post (media_publish_url ig_user_id)
       [("creation_id", container_id); ("access_token", PStr access_token)].

(** The [id] field of a response body, when the body is a JSON object that
    has one. *)
Definition id_field (res : Response) : option pyval :=
  match json res with
  | Returned (PDict d) => dict_get d "id"
  | _ => None
  end.

(** What [res.json().get("id")] evaluates to, line 11 as a whole. *)
Definition container_id_of (res : Response) : result pyval :=
  match response_json res with
  | Returned body => py_get body "id"
  | Raised e => Raised e
  end.

(** The same response under another status code. *)
Definition with_status (s : Z) (res : Response) : Response :=
  {| status_code := s; text := text res; json := json res |}.

Definition url_of (c : issued requestsE) : string :=
  match c with
  | Issued ev => match ev with Post url _ => url end
  end.

Definition data_of (c : issued requestsE) : dict :=
  match c with
  | Issued ev => match ev with Post _ data => data end
  end.

(** How many POSTs of a trace went to [url]. *)
Definition posts_to (url : string) (tr : list (issued requestsE)) : nat :=
  length (filter (fun c => String.eqb (url_of c) url) tr).

(** *** A scripted platform

    The world is the list of answers still to give; a POST takes the next
    one, and the connection fails once the script has run out. *)
Definition scripted (X : Type) (ev : requestsE X)
  : list (result Response) -> result X * list (result Response) :=
  match ev in requestsE T
        return list (result Response) -> result T * list (result Response)
  with
  | Post _ _ => fun w =>
      match w with
      | r :: rest => (r, rest)
      | [] => (Raised (External "ConnectionError"), [])
      end
  end.

Definition dq : ascii := "034"%char.

(** The body text of a JSON object with the single member [key: "value"]. *)
Definition object_text (key value : string) : string :=
  "{" ++ String dq key ++ String dq ": " ++ String dq value ++ String dq "}".

Definition ok_response (status : Z) (key value : string) : Response :=
  {| status_code := status;
     text := object_text key value;
     json := Returned (PDict [(key, PStr value)]) |}.

(** The answers of the scenarios: the empty object, an object whose [id] is
    0, and a failure page that is not JSON. *)
Definition no_id_response : Response :=
  {| status_code := 200; text := "{}"; json := Returned (PDict []) |}.

Definition zero_id_response : Response :=
  {| status_code := 200;
     text := "{" ++ String dq "id" ++ String dq ": 0}";
     json := Returned (PDict [("id", PInt 0)]) |}.

Definition failure_response : Response :=
  {| status_code := 500; text := "Internal Server Error"; json := Raised JSONDecodeError |}.

(** A body that is one integer literal of 4301 digits: the decoder refuses
    to convert it and [res.json()] raises [ValueError]. *)
Definition long_integer_response : Response :=
  {| status_code := 200;
     text := string_of_list_ascii (repeat "9"%char 4301);
     json := Raised ValueError |}.

End Instagram.

(** ** youtube_uploader.py *)

Module YouTube.

(** An object handed out by the Google client libraries (a credential, a
    service, a resource, a media upload, a request): the sources only pass
    these on. *)
Inductive pyobj : Type :=
| Obj (id : nat).

(** The calls into the client libraries, in the spelling of the sources. *)
Inductive googleE : Type -> Type :=
| from_service_account_file (filename : string) (scopes : list string)
    : googleE pyobj
| build (serviceName version : string) (credentials : pyobj) : googleE pyobj
| videos (service : pyobj) : googleE pyobj
| MediaFileUpload (filename : string) : googleE pyobj
| insert (resource : pyobj) (part : string) (body : pyval)
    (media_body : pyobj) : googleE pyobj
| execute (request : pyobj) : googleE pyval.

(** The arguments of a call are evaluated left to right before the call:
    [youtube.videos()] first, then [MediaFileUpload(video_path)], then
    [insert]. *)
Definition upload_to_youtube
    (video_path title description credentials_json : string)
  : prog googleE pyval :=
  let scopes := ["https://www.googleapis.com/auth/youtube.upload"] in
  credentials <- call (from_service_account_file credentials_json scopes) ;;
  youtube <- call (build "youtube" "v3" credentials) ;;
  resource <- call (videos youtube) ;;
  media_body <- call (MediaFileUpload video_path) ;;
  request <- call (insert resource "snippet,status"
    (PDict [
      ("snippet", PDict [
        ("title", PStr title);
        ("description", PStr description);
        ("tags", PList [PStr "AI"; PStr "Video"; PStr "Generated"]);
        ("categoryId", PStr "22")
      ]);
      ("status", PDict [
        ("privacyStatus", PStr "unlisted")
      ])
    ])
    media_body) ;;
  response <- call (execute request) ;;
  lift (py_getitem response "id").

(** *** Vocabulary of the specification *)

Definition upload_scope : string :=
  "https://www.googleapis.com/auth/youtube.upload".

(** An upload request as constructed: the arguments of an [insert]. *)
Record upload_request : Type := {
  req_resource : pyobj;
  req_part : string;
  req_body : pyval;
  req_media_body : pyobj
}.

Definition insert_of (c : issued googleE) : option upload_request :=
  match c with
  | Issued ev =>
      match ev with
      | insert r p b m =>
          Some {| req_resource := r; req_part := p;
                  req_body := b; req_media_body := m |}
      | _ => None
      end
  end.

(** The upload requests constructed during a run, oldest first. *)
Fixpoint inserts (tr : list (issued googleE)) : list upload_request :=
  match tr with
  | [] => []
  | c :: rest =>
      match insert_of c with
      | Some r => r :: inserts rest
      | None => inserts rest
      end
  end.

(** The credentials built during a run: key file and scopes asked for. *)
Fixpoint credential_loads (tr : list (issued googleE))
  : list (string * list string) :=
  match tr with
  | [] => []
  | Issued ev :: rest =>
      match ev with
      | from_service_account_file f s => (f, s) :: credential_loads rest
      | _ => credential_loads rest
      end
  end.

(** The body of the upload request, lines 15 to 25. *)
Definition upload_body (title description : string) : pyval :=
  PDict [
    ("snippet", PDict [
      ("title", PStr title);
      ("description", PStr description);
      ("tags", PList [PStr "AI"; PStr "Video"; PStr "Generated"]);
      ("categoryId", PStr "22")
    ]);
    ("status", PDict [
      ("privacyStatus", PStr "unlisted")
    ])
  ].

(** [v[k1][k2]...] *)
Fixpoint lookup (v : pyval) (path : list string) : result pyval :=
  match path with
  | [] => Returned v
  | k :: rest =>
      match py_getitem v k with
      | Returned x => lookup x rest
      | Raised e => Raised e
      end
  end.

(** The libraries accept the key file and the video: the credential [cred]
    is built from [credentials_json] with the upload scope, the client [yt]
    is built on it and gives the resource [res], and the media body [media]
    is opened on [video_path]. *)
Definition prepared {W : Type}
    (h : forall X : Type, googleE X -> W -> result X * W)
    (video_path credentials_json : string) (w0 : W)
    (cred yt res media : pyobj) (w4 : W) : Prop :=
  exists w1 w2 w3,
    answers h w0 (from_service_account_file credentials_json [upload_scope])
            cred w1 /\
    answers h w1 (build "youtube" "v3" cred) yt w2 /\
    answers h w2 (videos yt) res w3 /\
    answers h w3 (MediaFileUpload video_path) media w4.

(** *** A small Google

    The files that exist, the next object to hand out and the answer of the
    API to an executed request.  Opening a file that does not exist fails;
    every other library call hands out a fresh object. *)
Record google_world : Type := {
  files : list string;
  next_obj : nat;
  api_answer : result pyval
}.

Definition fresh (w : google_world) : result pyobj * google_world :=
  (Returned (Obj (next_obj w)),
   {| files := files w; next_obj := S (next_obj w);
      api_answer := api_answer w |}).

Definition open_file (f : string) (w : google_world)
  : result pyobj * google_world :=
  if existsb (String.eqb f) (files w) then fresh w
  else (Raised (External "FileNotFoundError"), w).

Definition google (X : Type) (ev : googleE X)
  : google_world -> result X * google_world :=
  match ev in googleE T return google_world -> result T * google_world with
  | from_service_account_file f _ => open_file f
  | build _ _ _ => fresh
  | videos _ => fresh
  | MediaFileUpload f => open_file f
  | insert _ _ _ _ => fresh
  | execute _ => fun w => (api_answer w, w)
  end.

End YouTube.

(** * Properties *)

(** ** Running programs *)

Section RunFacts.
Context {E : Type -> Type} {W : Type}.
Variable h : forall X : Type, E X -> W -> result X * W.

Lemma run_ret {R : Type} (r : R) (w : W) :
  run h (Ret r) w = Outcome (Returned r) w [].
Proof. reflexivity. Qed.

Lemma run_throw {R : Type} (e : exn) (w : W) :
  run h (@Throw E R e) w = Outcome (Raised e) w [].
Proof. reflexivity. Qed.

Lemma run_vis_returned {R X : Type} (ev : E X) (k : X -> prog E R)
    (w w' : W) (x : X) :
  answers h w ev x w' ->
  run h (Vis ev k) w = after (Issued ev) (run h (k x) w').
Proof. unfold answers. intros H. simpl. rewrite H. reflexivity. Qed.

Lemma run_vis_raised {R X : Type} (ev : E X) (k : X -> prog E R)
    (w w' : W) (e : exn) :
  h _ ev w = (Raised e, w') ->
  run h (Vis ev k) w = Outcome (Raised e) w' [Issued ev].
Proof. intros H. simpl. rewrite H. reflexivity. Qed.

(** A run of [bind m f] is the run of [m] followed, when [m] returns, by the
    run of [f] on what it returned. *)
Lemma run_bind {R S : Type} (m : prog E R) (f : R -> prog E S) (w : W) :
  run h (bind m f) w =
    match result_of (run h m w) with
    | Returned r =>
        let o := run h (f r) (world_of (run h m w)) in
        Outcome (result_of o) (world_of o)
                (trace_of (run h m w) ++ trace_of o)
    | Raised e =>
        Outcome (Raised e) (world_of (run h m w)) (trace_of (run h m w))
    end.
Proof.
  revert w. induction m as [r | e | X ev k IH]; intros w.
  - simpl. destruct (run h (f r) w); reflexivity.
  - reflexivity.
  - simpl. destruct (h X ev w) as [[x | e] w']; simpl.
    + rewrite IH. destruct (result_of (run h (k x) w')); reflexivity.
    + reflexivity.
Qed.

(** A run issues no call after one that raised: the trace of a run that
    ends in [Raised] because of the environment stops at that call. *)
Lemma run_call (X : Type) (ev : E X) (w : W) :
  trace_of (run h (call ev) w) = [Issued ev].
Proof.
  unfold call. simpl. destruct (h X ev w) as [[x | e] w']; reflexivity.
Qed.

End RunFacts.

(** ** instagram_uploader.py *)

Import Instagram.

Ltac unfold_upload :=
  unfold upload_to_instagram, answers, creation_request, publish_request,
    media_url, media_publish_url, CreationError, PublishError in *;
  cbn [run bind call lift].

(** The two endpoints are different URLs, whatever the account. *)
Lemma media_url_not_publish (ig_user_id : string) :
  String.eqb (media_url ig_user_id) (media_publish_url ig_user_id) = false.
Proof. reflexivity. Qed.

Lemma id_field_json (res : Response) (cid : pyval) :
  id_field res = Some cid ->
  exists d, json res = Returned (PDict d) /\ dict_get d "id" = Some cid.
Proof.
  unfold id_field. destruct (json res) as [[]|]; try discriminate.
  intros H. eauto.
Qed.

Lemma container_id_of_id_field (res : Response) (cid : pyval) :
  id_field res = Some cid -> container_id_of res = Returned cid.
Proof.
  intros H. destruct (id_field_json _ _ H) as (d & Hd & Hg).
  unfold container_id_of, response_json. rewrite Hd. simpl. rewrite Hg.
  reflexivity.
Qed.

(** Without an [id] field the lookup gives [None] or raises; it never gives
    a value that passes the test of line 13. *)
Lemma container_id_of_no_id_field (res : Response) :
  id_field res = None ->
  container_id_of res = Returned PNone \/ exists e, container_id_of res = Raised e.
Proof.
  unfold id_field, container_id_of, response_json.
  destruct (json res) as [v|]; [|right; eauto].
  destruct v; simpl; try (right; eauto; fail).
  intros ->. left. reflexivity.
Qed.

Section InstagramFacts.
Variable W : Type.
Variable h : forall X : Type, requestsE X -> W -> result X * W.
Variables video_path access_token ig_user_id : string.

Local Abbreviation upload :=
  (upload_to_instagram video_path access_token ig_user_id).
Local Abbreviation creation :=
  (creation_request video_path access_token ig_user_id).
Local Abbreviation publish cid :=
  (publish_request cid access_token ig_user_id).

(** The creation request is issued first, whatever happens next. *)
Lemma upload_starts_with_creation (w0 : W) :
  exists rest, trace_of (run h upload w0) = Issued creation :: rest.
Proof.
  unfold_upload.
  destruct (h Response _ w0) as [[res1 | e] w1]; eexists; reflexivity.
Qed.

(** A failure of the transport during creation reaches the caller as it is. *)
Lemma upload_creation_transport (w0 w1 : W) (e : exn) :
  h _ creation w0 = (Raised e, w1) ->
  run h upload w0 = Outcome (Raised e) w1 [Issued creation].
Proof. intros H. unfold_upload. rewrite H. reflexivity. Qed.

(** Line 11 raised. *)
Lemma upload_lookup_raises (w0 w1 : W) (res1 : Response) (e : exn) :
  answers h w0 creation res1 w1 ->
  container_id_of res1 = Raised e ->
  run h upload w0 = Outcome (Raised e) w1 [Issued creation].
Proof.
  intros H1 Hc. unfold_upload. rewrite H1. unfold container_id_of in Hc.
  destruct (response_json res1) as [body | e']; cbn [run bind lift].
  - rewrite Hc. reflexivity.
  - injection Hc as ->. reflexivity.
Qed.

(** Lines 13 and 14: the test rejected what the lookup gave. *)
Lemma upload_no_container (w0 w1 : W) (res1 : Response) (cid : pyval) :
  answers h w0 creation res1 w1 ->
  container_id_of res1 = Returned cid ->
  truthy cid = false ->
  run h upload w0 =
    Outcome (Raised (CreationError (text res1))) w1 [Issued creation].
Proof.
  intros H1 Hc Ht. unfold_upload. rewrite H1. unfold container_id_of in Hc.
  destruct (response_json res1) as [body | e']; [|discriminate].
  cbn [run bind lift]. rewrite Hc. cbn [run bind lift]. rewrite Ht.
  reflexivity.
Qed.

(** Lines 16 to 25: with a container, the publish request is issued and its
    answer decides. *)
Lemma upload_container (w0 w1 : W) (res1 : Response) (cid : pyval) :
  answers h w0 creation res1 w1 ->
  container_id_of res1 = Returned cid ->
  truthy cid = true ->
  run h upload w0 =
    after (Issued creation)
      match h _ (publish cid) w1 with
      | (Returned res2, w2) =>
          Outcome (if status_code res2 =? 200 then response_json res2
                   else Raised (PublishError (text res2)))
                  w2 [Issued (publish cid)]
      | (Raised e, w2) => Outcome (Raised e) w2 [Issued (publish cid)]
      end.
Proof.
  intros H1 Hc Ht. unfold_upload. rewrite H1. unfold container_id_of in Hc.
  destruct (response_json res1) as [body | e']; [|discriminate].
  cbn [run bind lift]. rewrite Hc. cbn [run bind lift]. rewrite Ht.
  cbn [negb run bind call lift]. f_equal.
  destruct (h Response _ w1) as [[res2 | e] w2]; [|reflexivity].
  destruct (status_code res2 =? 200); cbn [negb].
  - destruct (response_json res2); reflexivity.
  - reflexivity.
Qed.

(** C1. When the container-creation response carries a non-empty [id] and
    the publish response has status 200, the call returns the parsed JSON
    body of the publish response; the two requests are all it issued. *)
Theorem instagram_returns_publish_json
    (w0 w1 w2 : W) (res1 res2 : Response) (cid j : pyval) :
  answers h w0 creation res1 w1 ->
  id_field res1 = Some cid ->
  truthy cid = true ->
  answers h w1 (publish cid) res2 w2 ->
  status_code res2 = 200 ->
  json res2 = Returned j ->
  run h upload w0 =
    Outcome (Returned j) w2 [Issued creation; Issued (publish cid)].
Proof.
  intros H1 Hid Ht H2 Hs Hj.
  rewrite (upload_container w0 w1 res1 cid H1
             (container_id_of_id_field _ _ Hid) Ht).
  rewrite H2, Hs. unfold response_json. rewrite Hj. reflexivity.
Qed.

(** C2, as the code has it.  When the body of the container-creation
    response decodes to a JSON object with no [id] member, the call raises
    the exception labelled "Error creating container" that carries the raw
    text of that body, after the creation request alone. *)
Theorem instagram_missing_id_raises_creation_error
    (w0 w1 : W) (res1 : Response) (d : dict) :
  answers h w0 creation res1 w1 ->
  json res1 = Returned (PDict d) ->
  dict_get d "id" = None ->
  run h upload w0 =
    Outcome (Raised (Exception [PStr "Error creating container";
                                PStr (text res1)]))
            w1 [Issued creation].
Proof.
  intros H1 Hd Hg.
  assert (Hc : container_id_of res1 = Returned PNone).
  { unfold container_id_of, response_json. rewrite Hd. simpl. rewrite Hg.
    reflexivity. }
  apply (upload_no_container w0 w1 res1 PNone H1 Hc eq_refl).
Qed.

(** C3. When the container-creation response has no [id] field, no POST goes
    to the media_publish URL: the creation request is the only call of the
    run, which ends by raising. *)
Theorem instagram_missing_id_never_publishes
    (w0 w1 : W) (res1 : Response) :
  answers h w0 creation res1 w1 ->
  id_field res1 = None ->
  posts_to (media_publish_url ig_user_id) (trace_of (run h upload w0)) = 0%nat /\
  trace_of (run h upload w0) = [Issued creation] /\
  exists e, result_of (run h upload w0) = Raised e.
Proof.
  intros H1 Hid.
  assert (Hrun : exists e,
            run h upload w0 = Outcome (Raised e) w1 [Issued creation]).
  { destruct (container_id_of_no_id_field res1 Hid) as [Hc | [e Hc]].
    - eexists. apply (upload_no_container w0 w1 res1 PNone H1 Hc eq_refl).
    - exists e. apply (upload_lookup_raises w0 w1 res1 e H1 Hc). }
  destruct Hrun as [e ->]. cbn [trace_of result_of].
  split; [|split; [reflexivity|eauto]].
  unfold posts_to. cbn [filter url_of creation_request].
  rewrite media_url_not_publish. reflexivity.
Qed.

(** C4. When the container-creation response carries a non-empty [id] and
    the publish response has a status other than 200, the call raises the
    exception labelled "Error publishing video" that carries the raw text of
    the publish response. *)
Theorem instagram_publish_rejected_raises_publish_error
    (w0 w1 w2 : W) (res1 res2 : Response) (cid : pyval) :
  answers h w0 creation res1 w1 ->
  id_field res1 = Some cid ->
  truthy cid = true ->
  answers h w1 (publish cid) res2 w2 ->
  status_code res2 <> 200 ->
  run h upload w0 =
    Outcome (Raised (Exception [PStr "Error publishing video";
                                PStr (text res2)]))
            w2 [Issued creation; Issued (publish cid)].
Proof.
  intros H1 Hid Ht H2 Hs.
  rewrite (upload_container w0 w1 res1 cid H1
             (container_id_of_id_field _ _ Hid) Ht).
  rewrite H2. apply Z.eqb_neq in Hs. rewrite Hs. reflexivity.
Qed.

(** A run issues the creation request alone, or the creation request and
    then one publish request. *)
Lemma upload_trace_shape (w0 : W) :
  trace_of (run h upload w0) = [Issued creation] \/
  exists cid, trace_of (run h upload w0) = [Issued creation; Issued (publish cid)].
Proof.
  destruct (h _ creation w0) as [[res1 | e] w1] eqn:H1.
  - destruct (container_id_of res1) as [cid | e] eqn:Hc.
    + destruct (truthy cid) eqn:Ht.
      * right. exists cid. rewrite (upload_container w0 w1 res1 cid H1 Hc Ht).
        destruct (h _ (publish cid) w1) as [[res2 | e] w2]; reflexivity.
      * left. rewrite (upload_no_container w0 w1 res1 cid H1 Hc Ht).
        reflexivity.
    + left. rewrite (upload_lookup_raises w0 w1 res1 e H1 Hc). reflexivity.
  - left. rewrite (upload_creation_transport w0 w1 e H1). reflexivity.
Qed.

(** C7. The status code of the container-creation response is never looked
    at.  What the call does after the creation response is the same under
    any other status code; and a creation response with a non-empty [id],
    whatever its status, is followed by the publish request. *)
Theorem instagram_creation_status_not_inspected
    (w0 w1 : W) (res1 : Response) (cid : pyval) :
  answers h w0 creation res1 w1 ->
  id_field res1 = Some cid ->
  truthy cid = true ->
  (exists k, upload = Vis creation k /\
             forall res s, k (with_status s res) = k res) /\
  trace_of (run h upload w0) = [Issued creation; Issued (publish cid)] /\
  posts_to (media_publish_url ig_user_id) (trace_of (run h upload w0)) = 1%nat.
Proof.
  intros H1 Hid Ht. split.
  - eexists. split; [reflexivity|]. intros res s. reflexivity.
  - rewrite (upload_container w0 w1 res1 cid H1
               (container_id_of_id_field _ _ Hid) Ht).
    assert (Htr : forall o : outcome requestsE W pyval,
              trace_of o = [Issued (publish cid)] ->
              trace_of (after (Issued creation) o) =
                [Issued creation; Issued (publish cid)]).
    { intros o Ho. unfold after. cbn [trace_of]. rewrite Ho. reflexivity. }
    rewrite Htr by (destruct (h _ (publish cid) w1) as [[res2 | e] w2];
                    reflexivity).
    split; [reflexivity|].
    unfold posts_to. cbn [filter url_of creation_request publish_request].
    rewrite media_url_not_publish, String.eqb_refl. reflexivity.
Qed.


End InstagramFacts.

(** C9. An [id] field with a falsy value (the empty string, 0, false, null)
    has the effect of a missing one: the call raises the exception labelled
    "Error creating container" with the raw creation body, and the creation
    request is the only call of the run.  A run whose creation response has
    the same text and no [id] member ends the same way after the same
    calls. *)
Theorem instagram_falsy_id_is_missing_id
    (W : Type) (h : forall X : Type, requestsE X -> W -> result X * W)
    (video_path access_token ig_user_id : string)
    (w0 w1 : W) (res1 : Response) (cid : pyval) :
  answers h w0 (creation_request video_path access_token ig_user_id) res1 w1 ->
  id_field res1 = Some cid ->
  truthy cid = false ->
  run h (upload_to_instagram video_path access_token ig_user_id) w0 =
    Outcome (Raised (Exception [PStr "Error creating container";
                                PStr (text res1)]))
            w1
            [Issued (creation_request video_path access_token ig_user_id)] /\
  posts_to (media_publish_url ig_user_id)
    (trace_of (run h (upload_to_instagram video_path access_token ig_user_id)
                   w0)) = 0%nat /\
  forall (W' : Type) (h' : forall X : Type, requestsE X -> W' -> result X * W')
         (v0 v1 : W') (res0 : Response) (d0 : dict),
    answers h' v0 (creation_request video_path access_token ig_user_id)
            res0 v1 ->
    json res0 = Returned (PDict d0) ->
    dict_get d0 "id" = None ->
    text res0 = text res1 ->
    result_of (run h' (upload_to_instagram video_path access_token ig_user_id)
                   v0) =
      result_of (run h (upload_to_instagram video_path access_token ig_user_id)
                     w0) /\
    trace_of (run h' (upload_to_instagram video_path access_token ig_user_id)
                  v0) =
      trace_of (run h (upload_to_instagram video_path access_token ig_user_id)
                    w0).
Proof.
  intros H1 Hid Ht.
  rewrite (upload_no_container W h video_path access_token ig_user_id
             w0 w1 res1 cid H1 (container_id_of_id_field _ _ Hid) Ht).
  split; [reflexivity|]. split.
  - unfold posts_to. cbn [trace_of filter url_of creation_request].
    rewrite media_url_not_publish. reflexivity.
  - intros W' h' v0 v1 res0 d0 H0 Hd Hg Htext.
    assert (Hc : container_id_of res0 = Returned PNone).
    { unfold container_id_of, response_json. rewrite Hd. simpl. rewrite Hg.
      reflexivity. }
    rewrite (upload_no_container W' h' video_path access_token ig_user_id
               v0 v1 res0 PNone H0 Hc eq_refl).
    cbn [result_of trace_of]. rewrite Htext. split; reflexivity.
Qed.

(** The values C9 lists are falsy, and so are the zero floats and the empty
    containers. *)
Lemma falsy_values :
  map truthy [PStr ""; PInt 0; PBool false; PNone;
              PFloat (S754_zero false); PFloat (S754_zero true);
              PList []; PDict []] =
  [false; false; false; false; false; false; false; false].
Proof. reflexivity. Qed.

(** *** The scenarios of the specification, on the scripted platform *)

Lemma instagram_returns_publish_json_witness :
  run scripted (upload_to_instagram "https://cdn.example/clip.mp4" "token" "1784")
      [Returned (ok_response 200 "id" "17895");
       Returned (ok_response 200 "id" "final123")] =
    Outcome (Returned (PDict [("id", PStr "final123")])) []
      [Issued (creation_request "https://cdn.example/clip.mp4" "token" "1784");
       Issued (publish_request (PStr "17895") "token" "1784")].
Proof.
  apply (instagram_returns_publish_json _ scripted
           "https://cdn.example/clip.mp4" "token" "1784"
           [Returned (ok_response 200 "id" "17895");
            Returned (ok_response 200 "id" "final123")]
           [Returned (ok_response 200 "id" "final123")] []
           (ok_response 200 "id" "17895") (ok_response 200 "id" "final123")
           (PStr "17895") (PDict [("id", PStr "final123")]));
    reflexivity.
Defined.

Lemma instagram_missing_id_raises_creation_error_witness :
  run scripted (upload_to_instagram "https://cdn.example/clip.mp4" "token" "1784")
      [Returned no_id_response; Returned (ok_response 200 "id" "final123")] =
    Outcome (Raised (Exception [PStr "Error creating container"; PStr "{}"]))
      [Returned (ok_response 200 "id" "final123")]
      [Issued (creation_request "https://cdn.example/clip.mp4" "token" "1784")].
Proof.
  apply (instagram_missing_id_raises_creation_error _ scripted
           "https://cdn.example/clip.mp4" "token" "1784"
           [Returned no_id_response; Returned (ok_response 200 "id" "final123")]
           [Returned (ok_response 200 "id" "final123")]
           no_id_response []);
    reflexivity.
Defined.

Lemma instagram_missing_id_never_publishes_witness :
  posts_to (media_publish_url "1784")
    (trace_of
       (run scripted
          (upload_to_instagram "https://cdn.example/clip.mp4" "token" "1784")
          [Returned no_id_response;
           Returned (ok_response 200 "id" "final123")])) = 0%nat.
Proof.
  apply (instagram_missing_id_never_publishes _ scripted
           "https://cdn.example/clip.mp4" "token" "1784"
           [Returned no_id_response; Returned (ok_response 200 "id" "final123")]
           [Returned (ok_response 200 "id" "final123")]
           no_id_response);
    reflexivity.
Defined.

Lemma instagram_publish_rejected_raises_publish_error_witness :
  run scripted (upload_to_instagram "https://cdn.example/clip.mp4" "token" "1784")
      [Returned (ok_response 200 "id" "17895"); Returned failure_response] =
    Outcome (Raised (Exception [PStr "Error publishing video";
                                PStr "Internal Server Error"])) []
      [Issued (creation_request "https://cdn.example/clip.mp4" "token" "1784");
       Issued (publish_request (PStr "17895") "token" "1784")].
Proof.
  apply (instagram_publish_rejected_raises_publish_error _ scripted
           "https://cdn.example/clip.mp4" "token" "1784"
           [Returned (ok_response 200 "id" "17895"); Returned failure_response]
           [Returned failure_response] []
           (ok_response 200 "id" "17895") failure_response (PStr "17895"));
    try reflexivity.
  discriminate.
Defined.

Lemma instagram_creation_status_not_inspected_witness :
  posts_to (media_publish_url "1784")
    (trace_of
       (run scripted
          (upload_to_instagram "https://cdn.example/clip.mp4" "token" "1784")
          [Returned (ok_response 500 "id" "17895");
           Returned (ok_response 200 "id" "final123")])) = 1%nat.
Proof.
  apply (instagram_creation_status_not_inspected _ scripted
           "https://cdn.example/clip.mp4" "token" "1784"
           [Returned (ok_response 500 "id" "17895");
            Returned (ok_response 200 "id" "final123")]
           [Returned (ok_response 200 "id" "final123")]
           (ok_response 500 "id" "17895") (PStr "17895"));
    reflexivity.
Defined.

Lemma instagram_falsy_id_is_missing_id_witness :
  posts_to (media_publish_url "1784")
    (trace_of
       (run scripted
          (upload_to_instagram "https://cdn.example/clip.mp4" "token" "1784")
          [Returned zero_id_response;
           Returned (ok_response 200 "id" "final123")])) = 0%nat.
Proof.
  apply (instagram_falsy_id_is_missing_id _ scripted
           "https://cdn.example/clip.mp4" "token" "1784"
           [Returned zero_id_response;
            Returned (ok_response 200 "id" "final123")]
           [Returned (ok_response 200 "id" "final123")]
           zero_id_response (PInt 0));
    reflexivity.
Defined.

(** ** youtube_uploader.py *)

Import YouTube.

Ltac unfold_youtube :=
  unfold upload_to_youtube, prepared, answers, upload_body, upload_scope in *;
  cbn [run bind call lift].

Section YouTubeFacts.
Variable W : Type.
Variable h : forall X : Type, googleE X -> W -> result X * W.
Variables video_path title description credentials_json : string.

Local Abbreviation upload :=
  (upload_to_youtube video_path title description credentials_json).
Local Abbreviation load_credentials :=
  (from_service_account_file credentials_json [upload_scope]).
Local Abbreviation insert_request res media :=
  (insert res "snippet,status" (upload_body title description) media).

(** Up to the construction of the request. *)
Lemma upload_prepared (w0 w4 : W) (cred yt res media : pyobj) :
  prepared h video_path credentials_json w0 cred yt res media w4 ->
  run h upload w0 =
    after (Issued load_credentials)
      (after (Issued (build "youtube" "v3" cred))
         (after (Issued (videos yt))
            (after (Issued (MediaFileUpload video_path))
               match h _ (insert_request res media) w4 with
               | (Returned req, w5) =>
                   after (Issued (insert_request res media))
                     match h _ (execute req) w5 with
                     | (Returned response, w6) =>
                         Outcome (py_getitem response "id") w6
                                 [Issued (execute req)]
                     | (Raised e, w6) =>
                         Outcome (Raised e) w6 [Issued (execute req)]
                     end
               | (Raised e, w5) =>
                   Outcome (Raised e) w5 [Issued (insert_request res media)]
               end))).
Proof.
  intros (w1 & w2 & w3 & H1 & H2 & H3 & H4).
  unfold_youtube. rewrite H1. cbn [run bind call lift]. rewrite H2.
  cbn [run bind call lift]. rewrite H3. cbn [run bind call lift]. rewrite H4.
  cbn [run bind call lift]. do 4 f_equal.
  destruct (h pyobj _ w4) as [[req | e] w5]; [|reflexivity].
  f_equal. destruct (h pyval _ w5) as [[response | e] w6]; [|reflexivity].
  unfold after. cbn [result_of world_of trace_of].
  destruct (py_getitem response "id"); reflexivity.
Qed.

(** C5. With a key file and a video that the libraries accept, when the
    request is constructed and its execution succeeds with a response that
    has an [id], the call returns the value of that [id]. *)
Theorem youtube_returns_response_id
    (w0 w4 w5 w6 : W) (cred yt res media req : pyobj)
    (response : pyval) (d : dict) (v : pyval) :
  prepared h video_path credentials_json w0 cred yt res media w4 ->
  answers h w4 (insert_request res media) req w5 ->
  answers h w5 (execute req) response w6 ->
  response = PDict d ->
  dict_get d "id" = Some v ->
  result_of (run h upload w0) = Returned v /\
  world_of (run h upload w0) = w6.
Proof.
  intros Hp H5 H6 -> Hv. rewrite (upload_prepared w0 w4 cred yt res media Hp).
  unfold answers in H5, H6. rewrite H5, H6.
  unfold after. cbn [result_of world_of py_getitem]. rewrite Hv.
  split; reflexivity.
Qed.

(** Whatever the environment does, a run asks once for a credential, from
    the given key file and with the upload scope alone, and constructs at
    most one upload request. *)
Lemma upload_at_most_one_request (w0 : W) :
  credential_loads (trace_of (run h upload w0)) =
    [(credentials_json, [upload_scope])] /\
  (length (inserts (trace_of (run h upload w0))) <= 1)%nat.
Proof.
  unfold_youtube.
  destruct (h pyobj _ w0) as [[cred | e] w1]; [|split; [reflexivity | simpl; lia]].
  cbn [run bind call lift].
  destruct (h pyobj _ w1) as [[yt | e] w2]; [|split; [reflexivity | simpl; lia]].
  cbn [run bind call lift].
  destruct (h pyobj _ w2) as [[res | e] w3]; [|split; [reflexivity | simpl; lia]].
  cbn [run bind call lift].
  destruct (h pyobj _ w3) as [[media | e] w4]; [|split; [reflexivity | simpl; lia]].
  cbn [run bind call lift].
  destruct (h pyobj _ w4) as [[req | e] w5]; [|split; [reflexivity | simpl; lia]].
  cbn [run bind call lift].
  destruct (h pyval _ w5) as [[response | e] w6]; [|split; [reflexivity | simpl; lia]].
  destruct (py_getitem response "id"); split; solve [reflexivity | simpl; lia].
Qed.

(** C6. With a key file and a video that the libraries accept, a run
    constructs exactly one upload request.  Its body has the snippet with
    the caller's title and description, the fixed tags and the fixed
    category, and the status with visibility "unlisted"; its media body is
    the one opened on the video file; and the one credential of the run is
    built from the given key file with the upload scope as its only scope. *)
Theorem youtube_constructs_one_upload_request
    (w0 w4 : W) (cred yt res media : pyobj) :
  prepared h video_path credentials_json w0 cred yt res media w4 ->
  exists r rest,
    inserts (trace_of (run h upload w0)) = [r] /\
    req_resource r = res /\
    req_part r = "snippet,status" /\
    req_media_body r = media /\
    lookup (req_body r) ["snippet"; "title"] = Returned (PStr title) /\
    lookup (req_body r) ["snippet"; "description"] =
      Returned (PStr description) /\
    lookup (req_body r) ["snippet"; "tags"] =
      Returned (PList [PStr "AI"; PStr "Video"; PStr "Generated"]) /\
    lookup (req_body r) ["snippet"; "categoryId"] = Returned (PStr "22") /\
    lookup (req_body r) ["status"; "privacyStatus"] =
      Returned (PStr "unlisted") /\
    req_body r = upload_body title description /\
    credential_loads (trace_of (run h upload w0)) =
      [(credentials_json,
        ["https://www.googleapis.com/auth/youtube.upload"])] /\
    trace_of (run h upload w0) =
      ([Issued (from_service_account_file credentials_json
                  ["https://www.googleapis.com/auth/youtube.upload"]);
        Issued (build "youtube" "v3" cred);
        Issued (videos yt);
        Issued (MediaFileUpload video_path);
        Issued (insert res "snippet,status" (req_body r) media)] ++ rest)%list.
Proof.
  intros Hp. rewrite (upload_prepared w0 w4 cred yt res media Hp).
  exists {| req_resource := res; req_part := "snippet,status";
            req_body := upload_body title description;
            req_media_body := media |}.
  destruct (h pyobj (insert_request res media) w4) as [[req | e] w5].
  - destruct (h pyval (execute req) w5) as [[response | e] w6];
      exists [Issued (execute req)]; repeat split; reflexivity.
  - exists []. repeat split; reflexivity.
Qed.

End YouTubeFacts.

(** *** The uploader against the small Google *)

Lemma youtube_returns_response_id_witness :
  result_of
    (run google (upload_to_youtube "clip.mp4" "Goal" "Minute 90" "key.json")
       {| files := ["key.json"; "clip.mp4"]; next_obj := 0;
          api_answer := Returned (PDict [("kind", PStr "youtube#video");
                                         ("id", PStr "dQw4")]) |}) =
    Returned (PStr "dQw4").
Proof.
  apply (youtube_returns_response_id _ google
           "clip.mp4" "Goal" "Minute 90" "key.json"
           {| files := ["key.json"; "clip.mp4"]; next_obj := 0;
              api_answer := Returned (PDict [("kind", PStr "youtube#video");
                                             ("id", PStr "dQw4")]) |}
           {| files := ["key.json"; "clip.mp4"]; next_obj := 4;
              api_answer := Returned (PDict [("kind", PStr "youtube#video");
                                             ("id", PStr "dQw4")]) |}
           {| files := ["key.json"; "clip.mp4"]; next_obj := 5;
              api_answer := Returned (PDict [("kind", PStr "youtube#video");
                                             ("id", PStr "dQw4")]) |}
           {| files := ["key.json"; "clip.mp4"]; next_obj := 5;
              api_answer := Returned (PDict [("kind", PStr "youtube#video");
                                             ("id", PStr "dQw4")]) |}
           (Obj 0) (Obj 1) (Obj 2) (Obj 3) (Obj 4)
           (PDict [("kind", PStr "youtube#video"); ("id", PStr "dQw4")])
           [("kind", PStr "youtube#video"); ("id", PStr "dQw4")]
           (PStr "dQw4"));
    try reflexivity.
  do 3 eexists. repeat split; reflexivity.
Defined.

Lemma youtube_constructs_one_upload_request_witness :
  exists r rest,
    inserts
      (trace_of
         (run google (upload_to_youtube "clip.mp4" "Goal" "Minute 90" "key.json")
            {| files := ["key.json"; "clip.mp4"]; next_obj := 0;
               api_answer := Raised (External "HttpError") |})) = [r] /\
    req_resource r = Obj 2 /\
    req_part r = "snippet,status" /\
    req_media_body r = Obj 3 /\
    lookup (req_body r) ["snippet"; "title"] = Returned (PStr "Goal") /\
    lookup (req_body r) ["snippet"; "description"] =
      Returned (PStr "Minute 90") /\
    lookup (req_body r) ["snippet"; "tags"] =
      Returned (PList [PStr "AI"; PStr "Video"; PStr "Generated"]) /\
    lookup (req_body r) ["snippet"; "categoryId"] = Returned (PStr "22") /\
    lookup (req_body r) ["status"; "privacyStatus"] =
      Returned (PStr "unlisted") /\
    req_body r = upload_body "Goal" "Minute 90" /\
    credential_loads
      (trace_of
         (run google (upload_to_youtube "clip.mp4" "Goal" "Minute 90" "key.json")
            {| files := ["key.json"; "clip.mp4"]; next_obj := 0;
               api_answer := Raised (External "HttpError") |})) =
      [("key.json", ["https://www.googleapis.com/auth/youtube.upload"])] /\
    trace_of
      (run google (upload_to_youtube "clip.mp4" "Goal" "Minute 90" "key.json")
         {| files := ["key.json"; "clip.mp4"]; next_obj := 0;
            api_answer := Raised (External "HttpError") |}) =
      ([Issued (from_service_account_file "key.json"
                  ["https://www.googleapis.com/auth/youtube.upload"]);
        Issued (build "youtube" "v3" (Obj 0));
        Issued (videos (Obj 1));
        Issued (MediaFileUpload "clip.mp4");
        Issued (insert (Obj 2) "snippet,status" (req_body r) (Obj 3))]
       ++ rest)%list.
Proof.
  apply (youtube_constructs_one_upload_request _ google
           "clip.mp4" "Goal" "Minute 90" "key.json"
           {| files := ["key.json"; "clip.mp4"]; next_obj := 0;
              api_answer := Raised (External "HttpError") |}
           {| files := ["key.json"; "clip.mp4"]; next_obj := 4;
              api_answer := Raised (External "HttpError") |}
           (Obj 0) (Obj 1) (Obj 2) (Obj 3)).
  do 3 eexists. repeat split; reflexivity.
Defined.

(** ** What the caller gets on success *)

(** C8, as the code has it.  On success [upload_to_youtube] returns the
    identifier itself, the [id] of the insert response; [upload_to_instagram]
    returns the parsed body of the publish response, an object that holds
    the identifier under [id]. *)
Theorem publishers_return_platform_identifier
    (Wi : Type) (hi : forall X : Type, requestsE X -> Wi -> result X * Wi)
    (video_url access_token ig_user_id : string)
    (i0 i1 i2 : Wi) (res1 res2 : Response) (cid pid : pyval)
    (Wy : Type) (hy : forall X : Type, googleE X -> Wy -> result X * Wy)
    (video_path title description credentials_json : string)
    (y0 y4 y5 y6 : Wy) (cred yt res media req : pyobj)
    (d : dict) (vid : pyval) :
  answers hi i0 (creation_request video_url access_token ig_user_id) res1 i1 ->
  id_field res1 = Some cid ->
  truthy cid = true ->
  answers hi i1 (publish_request cid access_token ig_user_id) res2 i2 ->
  status_code res2 = 200 ->
  id_field res2 = Some pid ->
  prepared hy video_path credentials_json y0 cred yt res media y4 ->
  answers hy y4 (insert res "snippet,status" (upload_body title description)
                   media) req y5 ->
  answers hy y5 (execute req) (PDict d) y6 ->
  dict_get d "id" = Some vid ->
  (exists body,
     result_of (run hi (upload_to_instagram video_url access_token ig_user_id)
                    i0) = Returned (PDict body) /\
     json res2 = Returned (PDict body) /\
     dict_get body "id" = Some pid) /\
  result_of (run hy (upload_to_youtube video_path title description
                       credentials_json) y0) = Returned vid.
Proof.
  intros H1 Hid Ht H2 Hs Hpid Hp H5 H6 Hv. split.
  - destruct (id_field_json _ _ Hpid) as (body & Hj & Hg).
    exists body.
    rewrite (upload_container Wi hi video_url access_token ig_user_id
               i0 i1 res1 cid H1 (container_id_of_id_field _ _ Hid) Ht).
    rewrite H2, Hs. unfold response_json. rewrite Hj. auto.
  - rewrite (upload_prepared Wy hy video_path title description
               credentials_json y0 y4 cred yt res media Hp).
    unfold answers in H5, H6. rewrite H5, H6.
    unfold after. cbn [result_of py_getitem]. rewrite Hv. reflexivity.
Qed.

Lemma publishers_return_platform_identifier_witness :
  (exists body,
     result_of
       (run scripted
          (upload_to_instagram "https://cdn.example/clip.mp4" "token" "1784")
          [Returned (ok_response 200 "id" "17895");
           Returned (ok_response 200 "id" "final123")]) =
       Returned (PDict body) /\
     json (ok_response 200 "id" "final123") = Returned (PDict body) /\
     dict_get body "id" = Some (PStr "final123")) /\
  result_of
    (run google (upload_to_youtube "clip.mp4" "Goal" "Minute 90" "key.json")
       {| files := ["key.json"; "clip.mp4"]; next_obj := 0;
          api_answer := Returned (PDict [("id", PStr "dQw4")]) |}) =
    Returned (PStr "dQw4").
Proof.
  apply (publishers_return_platform_identifier
           _ scripted "https://cdn.example/clip.mp4" "token" "1784"
           [Returned (ok_response 200 "id" "17895");
            Returned (ok_response 200 "id" "final123")]
           [Returned (ok_response 200 "id" "final123")] []
           (ok_response 200 "id" "17895") (ok_response 200 "id" "final123")
           (PStr "17895") (PStr "final123")
           _ google "clip.mp4" "Goal" "Minute 90" "key.json"
           {| files := ["key.json"; "clip.mp4"]; next_obj := 0;
              api_answer := Returned (PDict [("id", PStr "dQw4")]) |}
           {| files := ["key.json"; "clip.mp4"]; next_obj := 4;
              api_answer := Returned (PDict [("id", PStr "dQw4")]) |}
           {| files := ["key.json"; "clip.mp4"]; next_obj := 5;
              api_answer := Returned (PDict [("id", PStr "dQw4")]) |}
           {| files := ["key.json"; "clip.mp4"]; next_obj := 5;
              api_answer := Returned (PDict [("id", PStr "dQw4")]) |}
           (Obj 0) (Obj 1) (Obj 2) (Obj 3) (Obj 4)
           [("id", PStr "dQw4")] (PStr "dQw4"));
    try reflexivity.
  do 3 eexists. repeat split; reflexivity.
Defined.

(** C8 fails as stated: in the success scenario of the specification the
    platform identifier is "final123"; the caller receives the object that holds it, which is not
    the identifier. *)
Lemma instagram_result_is_not_the_identifier :
  id_field (ok_response 200 "id" "final123") = Some (PStr "final123") /\
  result_of
    (run scripted
       (upload_to_instagram "https://cdn.example/clip.mp4" "token" "1784")
       [Returned (ok_response 200 "id" "17895");
        Returned (ok_response 200 "id" "final123")]) =
    Returned (PDict [("id", PStr "final123")]) /\
  result_of
    (run scripted
       (upload_to_instagram "https://cdn.example/clip.mp4" "token" "1784")
       [Returned (ok_response 200 "id" "17895");
        Returned (ok_response 200 "id" "final123")]) <>
    Returned (PStr "final123").
Proof.
  split; [reflexivity|]. split; [reflexivity|]. vm_compute. discriminate.
Qed.

(** C2 fails as stated: the body of a failure page has no [id] field, and
    the call ends with the decoder's exception of line 11, which is not the
    exception labelled "Error creating container". *)
Lemma instagram_missing_id_without_creation_error :
  id_field failure_response = None /\
  result_of
    (run scripted
       (upload_to_instagram "https://cdn.example/clip.mp4" "token" "1784")
       [Returned failure_response;
        Returned (ok_response 200 "id" "final123")]) =
    Raised JSONDecodeError /\
  result_of
    (run scripted
       (upload_to_instagram "https://cdn.example/clip.mp4" "token" "1784")
       [Returned failure_response;
        Returned (ok_response 200 "id" "final123")]) <>
    Raised (Exception [PStr "Error creating container";
                       PStr (text failure_response)]).
Proof.
  split; [reflexivity|]. split; [reflexivity|]. vm_compute. discriminate.
Qed.

(** ** Edge cases *)

(** A creation body that is not JSON stops the call at line 11, with the
    decoder's exception and before any publish request. *)
Lemma instagram_undecodable_creation_body :
  run scripted (upload_to_instagram "https://cdn.example/clip.mp4" "token" "1784")
      [Returned failure_response; Returned (ok_response 200 "id" "final123")] =
    Outcome (Raised JSONDecodeError)
      [Returned (ok_response 200 "id" "final123")]
      [Issued (creation_request "https://cdn.example/clip.mp4" "token" "1784")].
Proof. reflexivity. Qed.

(** A publish response with status 200 whose body is not JSON makes line 25
    raise. *)
Lemma instagram_undecodable_publish_body :
  result_of
    (run scripted
       (upload_to_instagram "https://cdn.example/clip.mp4" "token" "1784")
       [Returned (ok_response 200 "id" "17895");
        Returned (with_status 200 failure_response)]) =
    Raised JSONDecodeError.
Proof. reflexivity. Qed.

(** A failure of the transport reaches the caller as raised. *)
Lemma instagram_transport_failure :
  result_of
    (run scripted
       (upload_to_instagram "https://cdn.example/clip.mp4" "token" "1784")
       [Raised (External "Timeout")]) = Raised (External "Timeout").
Proof. reflexivity. Qed.

(** Without the key file the call ends in the library's exception before
    any request is constructed. *)
Lemma youtube_missing_key_file :
  let o := run google
             (upload_to_youtube "clip.mp4" "Goal" "Minute 90" "key.json")
             {| files := ["clip.mp4"]; next_obj := 0;
                api_answer := Returned (PDict [("id", PStr "dQw4")]) |} in
  result_of o = Raised (External "FileNotFoundError") /\
  inserts (trace_of o) = [].
Proof. split; reflexivity. Qed.

(** A failed execution reaches the caller as raised, and a response without
    [id] makes line 30 raise [KeyError]. *)
Lemma youtube_execute_failure :
  result_of
    (run google (upload_to_youtube "clip.mp4" "Goal" "Minute 90" "key.json")
       {| files := ["key.json"; "clip.mp4"]; next_obj := 0;
          api_answer := Raised (External "HttpError") |}) =
    Raised (External "HttpError").
Proof. reflexivity. Qed.

Lemma youtube_response_without_id :
  result_of
    (run google (upload_to_youtube "clip.mp4" "Goal" "Minute 90" "key.json")
       {| files := ["key.json"; "clip.mp4"]; next_obj := 0;
          api_answer := Returned (PDict [("kind", PStr "youtube#video")]) |}) =
    Raised (KeyError "id").
Proof. reflexivity. Qed.

(** ** instagram_uploader.py: failures, and what a run never does *)

Lemma id_field_of_container_id (res : Response) (cid : pyval) :
  container_id_of res = Returned cid ->
  truthy cid = true ->
  id_field res = Some cid.
Proof.
  unfold container_id_of, response_json, id_field.
  destruct (json res) as [v|]; [|discriminate].
  destruct v; simpl; try discriminate.
  destruct (dict_get items "id") as [x|]; intros H Ht.
  - injection H as ->. reflexivity.
  - injection H as <-. discriminate.
Qed.

Section InstagramEdges.
Variable W : Type.
Variable h : forall X : Type, requestsE X -> W -> result X * W.
Variables video_path access_token ig_user_id : string.

Local Abbreviation upload :=
  (upload_to_instagram video_path access_token ig_user_id).
Local Abbreviation creation :=
  (creation_request video_path access_token ig_user_id).
Local Abbreviation publish cid :=
  (publish_request cid access_token ig_user_id).

(** X1. Line 10 catches nothing: what the creation POST raises is what the
    caller gets, and no other request is issued. *)
Theorem instagram_creation_failure_propagates (w0 w1 : W) (e : exn) :
  h _ creation w0 = (Raised e, w1) ->
  run h upload w0 = Outcome (Raised e) w1 [Issued creation].
Proof. intros H. apply (upload_creation_transport W h _ _ _ w0 w1 e H). Qed.

(** X2. Lines 17 to 20 catch nothing either: with a container, what the
    publish POST raises is what the caller gets, after the two requests. *)
Theorem instagram_publish_failure_propagates
    (w0 w1 w2 : W) (res1 : Response) (cid : pyval) (e : exn) :
  answers h w0 creation res1 w1 ->
  id_field res1 = Some cid ->
  truthy cid = true ->
  h _ (publish cid) w1 = (Raised e, w2) ->
  run h upload w0 =
    Outcome (Raised e) w2 [Issued creation; Issued (publish cid)].
Proof.
  intros H1 Hid Ht H2.
  rewrite (upload_container W h _ _ _ w0 w1 res1 cid H1
             (container_id_of_id_field _ _ Hid) Ht).
  rewrite H2. reflexivity.
Qed.

(** X3. Line 11 catches nothing: when [res.json()] raises on the creation
    response, whatever it raises is what the caller gets.  The labelled
    exception of line 14 is not raised, and nothing is published. *)
Theorem instagram_undecodable_creation_raises
    (w0 w1 : W) (res1 : Response) (e : exn) :
  answers h w0 creation res1 w1 ->
  json res1 = Raised e ->
  run h upload w0 = Outcome (Raised e) w1 [Issued creation].
Proof.
  intros H1 Hj.
  apply (upload_lookup_raises W h _ _ _ w0 w1 res1 e H1).
  unfold container_id_of, response_json. rewrite Hj. reflexivity.
Qed.

(** X4. A creation body that decodes to something other than an object (a
    list, a string, a number, null) makes [.get] of line 11 raise
    [AttributeError]; nothing is published. *)
Theorem instagram_non_object_creation_raises
    (w0 w1 : W) (res1 : Response) (v : pyval) :
  answers h w0 creation res1 w1 ->
  json res1 = Returned v ->
  (forall d, v <> PDict d) ->
  run h upload w0 =
    Outcome (Raised (AttributeError "get")) w1 [Issued creation].
Proof.
  intros H1 Hj Hv.
  apply (upload_lookup_raises W h _ _ _ w0 w1 res1 _ H1).
  unfold container_id_of, response_json. rewrite Hj.
  destruct v; try reflexivity. destruct (Hv items eq_refl).
Qed.

(** X5. Line 25 catches nothing: when the publish response has status 200
    and [res.json()] raises on it, whatever it raises is what the caller
    gets, after the publish request was issued and answered. *)
Theorem instagram_undecodable_publish_raises
    (w0 w1 w2 : W) (res1 res2 : Response) (cid : pyval) (e : exn) :
  answers h w0 creation res1 w1 ->
  id_field res1 = Some cid ->
  truthy cid = true ->
  answers h w1 (publish cid) res2 w2 ->
  status_code res2 = 200 ->
  json res2 = Raised e ->
  run h upload w0 =
    Outcome (Raised e) w2
      [Issued creation; Issued (publish cid)].
Proof.
  intros H1 Hid Ht H2 Hs Hj.
  rewrite (upload_container W h _ _ _ w0 w1 res1 cid H1
             (container_id_of_id_field _ _ Hid) Ht).
  rewrite H2, Hs. unfold response_json. rewrite Hj. reflexivity.
Qed.

(** X6. The call returns only when a container was published: if it returns
    [j], the creation response had a non-empty [id], the publish request
    for that [id] was answered with status 200, and [j] is the decoded body
    of that answer. *)
Theorem instagram_returns_only_when_published (w0 : W) (j : pyval) :
  result_of (run h upload w0) = Returned j ->
  exists w1 w2 res1 res2 cid,
    answers h w0 creation res1 w1 /\
    id_field res1 = Some cid /\
    truthy cid = true /\
    answers h w1 (publish cid) res2 w2 /\
    status_code res2 = 200 /\
    json res2 = Returned j /\
    trace_of (run h upload w0) = [Issued creation; Issued (publish cid)].
Proof.
  destruct (h _ creation w0) as [[res1 | e] w1] eqn:H1.
  - destruct (container_id_of res1) as [cid | e] eqn:Hc.
    + destruct (truthy cid) eqn:Ht.
      * rewrite (upload_container W h _ _ _ w0 w1 res1 cid H1 Hc Ht).
        destruct (h _ (publish cid) w1) as [[res2 | e] w2] eqn:H2;
          [|discriminate].
        destruct (status_code res2 =? 200) eqn:Hs; [|discriminate].
        unfold response_json. destruct (json res2) as [j'|] eqn:Hj;
          [|discriminate].
        cbn [after result_of trace_of]. intros Hr. injection Hr as ->.
        exists w1, w2, res1, res2, cid.
        apply Z.eqb_eq in Hs.
        repeat split; auto using id_field_of_container_id.
      * rewrite (upload_no_container W h _ _ _ w0 w1 res1 cid H1 Hc Ht).
        discriminate.
    + rewrite (upload_lookup_raises W h _ _ _ w0 w1 res1 e H1 Hc).
      discriminate.
  - rewrite (upload_creation_transport W h _ _ _ w0 w1 e H1). discriminate.
Qed.

(** X7. No retry: whatever the platform answers, a run sends exactly one
    POST to the media URL, at most one to the media_publish URL, and
    nothing else. *)
Theorem instagram_no_retry (w0 : W) :
  posts_to (media_url ig_user_id) (trace_of (run h upload w0)) = 1%nat /\
  (posts_to (media_publish_url ig_user_id) (trace_of (run h upload w0))
     <= 1)%nat /\
  (length (trace_of (run h upload w0)) <= 2)%nat.
Proof.
  assert (Hne : String.eqb (media_publish_url ig_user_id)
                           (media_url ig_user_id) = false) by reflexivity.
  destruct (upload_trace_shape W h video_path access_token ig_user_id w0)
    as [-> | [cid ->]];
    unfold posts_to;
    cbn [filter url_of creation_request publish_request];
    rewrite ?String.eqb_refl, ?media_url_not_publish, ?Hne; simpl;
    repeat split; lia.
Qed.

(** X8. Every request of a run goes to one of the two endpoints of the
    given account and carries the given access token in its form data. *)
Theorem instagram_requests_carry_token (w0 : W) :
  Forall (fun c =>
            (url_of c = media_url ig_user_id \/
             url_of c = media_publish_url ig_user_id) /\
            dict_get (data_of c) "access_token" = Some (PStr access_token))
         (trace_of (run h upload w0)).
Proof.
  destruct (upload_trace_shape W h video_path access_token ig_user_id w0)
    as [-> | [cid ->]].
  - constructor; [|constructor]. split; [left|]; reflexivity.
  - constructor; [|constructor; [|constructor]].
    + split; [left|]; reflexivity.
    + split; [right|]; reflexivity.
Qed.

End InstagramEdges.

Lemma instagram_creation_failure_propagates_witness :
  run scripted (upload_to_instagram "https://cdn.example/clip.mp4" "token" "1784")
      [Raised (External "Timeout"); Returned (ok_response 200 "id" "17895")] =
    Outcome (Raised (External "Timeout"))
      [Returned (ok_response 200 "id" "17895")]
      [Issued (creation_request "https://cdn.example/clip.mp4" "token" "1784")].
Proof.
  apply (instagram_creation_failure_propagates _ scripted
           "https://cdn.example/clip.mp4" "token" "1784"
           [Raised (External "Timeout");
            Returned (ok_response 200 "id" "17895")]
           [Returned (ok_response 200 "id" "17895")]
           (External "Timeout")).
  reflexivity.
Defined.

Lemma instagram_publish_failure_propagates_witness :
  run scripted (upload_to_instagram "https://cdn.example/clip.mp4" "token" "1784")
      [Returned (ok_response 200 "id" "17895"); Raised (External "Timeout")] =
    Outcome (Raised (External "Timeout")) []
      [Issued (creation_request "https://cdn.example/clip.mp4" "token" "1784");
       Issued (publish_request (PStr "17895") "token" "1784")].
Proof.
  apply (instagram_publish_failure_propagates _ scripted
           "https://cdn.example/clip.mp4" "token" "1784"
           [Returned (ok_response 200 "id" "17895");
            Raised (External "Timeout")]
           [Raised (External "Timeout")] []
           (ok_response 200 "id" "17895") (PStr "17895") (External "Timeout"));
    reflexivity.
Defined.

Lemma instagram_undecodable_creation_raises_witness :
  run scripted (upload_to_instagram "https://cdn.example/clip.mp4" "token" "1784")
      [Returned long_integer_response] =
    Outcome (Raised ValueError) []
      [Issued (creation_request "https://cdn.example/clip.mp4" "token" "1784")].
Proof.
  apply (instagram_undecodable_creation_raises _ scripted
           "https://cdn.example/clip.mp4" "token" "1784"
           [Returned long_integer_response] [] long_integer_response
           ValueError);
    reflexivity.
Defined.

Lemma instagram_non_object_creation_raises_witness :
  run scripted (upload_to_instagram "https://cdn.example/clip.mp4" "token" "1784")
      [Returned {| status_code := 200; text := "[]";
                   json := Returned (PList []) |}] =
    Outcome (Raised (AttributeError "get")) []
      [Issued (creation_request "https://cdn.example/clip.mp4" "token" "1784")].
Proof.
  apply (instagram_non_object_creation_raises _ scripted
           "https://cdn.example/clip.mp4" "token" "1784"
           [Returned {| status_code := 200; text := "[]";
                        json := Returned (PList []) |}] []
           {| status_code := 200; text := "[]"; json := Returned (PList []) |}
           (PList []));
    try reflexivity.
  intros d. discriminate.
Defined.

Lemma instagram_undecodable_publish_raises_witness :
  run scripted (upload_to_instagram "https://cdn.example/clip.mp4" "token" "1784")
      [Returned (ok_response 200 "id" "17895");
       Returned (with_status 200 failure_response)] =
    Outcome (Raised JSONDecodeError) []
      [Issued (creation_request "https://cdn.example/clip.mp4" "token" "1784");
       Issued (publish_request (PStr "17895") "token" "1784")].
Proof.
  apply (instagram_undecodable_publish_raises _ scripted
           "https://cdn.example/clip.mp4" "token" "1784"
           [Returned (ok_response 200 "id" "17895");
            Returned (with_status 200 failure_response)]
           [Returned (with_status 200 failure_response)] []
           (ok_response 200 "id" "17895") (with_status 200 failure_response)
           (PStr "17895") JSONDecodeError);
    reflexivity.
Defined.

Lemma instagram_returns_only_when_published_witness :
  exists w1 w2 res1 res2 cid,
    answers scripted
      [Returned (ok_response 200 "id" "17895");
       Returned (ok_response 200 "id" "final123")]
      (creation_request "https://cdn.example/clip.mp4" "token" "1784")
      res1 w1 /\
    id_field res1 = Some cid /\
    truthy cid = true /\
    answers scripted w1 (publish_request cid "token" "1784") res2 w2 /\
    status_code res2 = 200 /\
    json res2 = Returned (PDict [("id", PStr "final123")]) /\
    trace_of
      (run scripted
         (upload_to_instagram "https://cdn.example/clip.mp4" "token" "1784")
         [Returned (ok_response 200 "id" "17895");
          Returned (ok_response 200 "id" "final123")]) =
      [Issued (creation_request "https://cdn.example/clip.mp4" "token" "1784");
       Issued (publish_request cid "token" "1784")].
Proof.
  apply (instagram_returns_only_when_published _ scripted
           "https://cdn.example/clip.mp4" "token" "1784"
           [Returned (ok_response 200 "id" "17895");
            Returned (ok_response 200 "id" "final123")]
           (PDict [("id", PStr "final123")])).
  reflexivity.
Defined.

(** ** youtube_uploader.py: the order of the calls, and failures *)

Section YouTubeEdges.
Variable W : Type.
Variable h : forall X : Type, googleE X -> W -> result X * W.
Variables video_path title description credentials_json : string.

Local Abbreviation upload :=
  (upload_to_youtube video_path title description credentials_json).
Local Abbreviation load_credentials :=
  (from_service_account_file credentials_json [upload_scope]).
Local Abbreviation insert_request res media :=
  (insert res "snippet,status" (upload_body title description) media).


(** X10. Line 7 catches nothing: when the key file is refused, the library's
    exception is what the caller gets, and no client is built, no video is
    opened and no request is constructed. *)
Theorem youtube_credential_failure_propagates (w0 w1 : W) (e : exn) :
  h _ load_credentials w0 = (Raised e, w1) ->
  run h upload w0 = Outcome (Raised e) w1 [Issued load_credentials].
Proof. intros H. unfold_youtube. rewrite H. reflexivity. Qed.

(** X11. The video file is opened only after the credential and the client
    were obtained; when opening it fails, the library's exception is what
    the caller gets and no upload request is constructed. *)
Theorem youtube_media_failure_propagates
    (w0 w1 w2 w3 w4 : W) (cred yt res : pyobj) (e : exn) :
  answers h w0 load_credentials cred w1 ->
  answers h w1 (build "youtube" "v3" cred) yt w2 ->
  answers h w2 (videos yt) res w3 ->
  h _ (MediaFileUpload video_path) w3 = (Raised e, w4) ->
  run h upload w0 =
    Outcome (Raised e) w4
      [Issued load_credentials; Issued (build "youtube" "v3" cred);
       Issued (videos yt); Issued (MediaFileUpload video_path)] /\
  inserts (trace_of (run h upload w0)) = [].
Proof.
  intros H1 H2 H3 H4. unfold_youtube.
  rewrite H1. cbn [run bind call lift]. rewrite H2. cbn [run bind call lift].
  rewrite H3. cbn [run bind call lift]. rewrite H4.
  split; reflexivity.
Qed.

(** X12. Line 29 catches nothing and is not retried: when executing the
    request fails, the library's exception is what the caller gets, after
    one insert and one execute. *)
Theorem youtube_execute_failure_propagates
    (w0 w4 w5 w6 : W) (cred yt res media req : pyobj) (e : exn) :
  prepared h video_path credentials_json w0 cred yt res media w4 ->
  answers h w4 (insert_request res media) req w5 ->
  h _ (execute req) w5 = (Raised e, w6) ->
  run h upload w0 =
    Outcome (Raised e) w6
      [Issued load_credentials; Issued (build "youtube" "v3" cred);
       Issued (videos yt); Issued (MediaFileUpload video_path);
       Issued (insert_request res media); Issued (execute req)].
Proof.
  intros Hp H5 H6.
  rewrite (upload_prepared W h _ _ _ _ w0 w4 cred yt res media Hp).
  unfold answers in H5. rewrite H5, H6. reflexivity.
Qed.

(** X13. An executed request whose response is an object without [id] makes
    line 30 raise [KeyError]: the upload was executed, and the caller gets
    no identifier. *)
Theorem youtube_response_without_id_raises
    (w0 w4 w5 w6 : W) (cred yt res media req : pyobj) (d : dict) :
  prepared h video_path credentials_json w0 cred yt res media w4 ->
  answers h w4 (insert_request res media) req w5 ->
  answers h w5 (execute req) (PDict d) w6 ->
  dict_get d "id" = None ->
  run h upload w0 =
    Outcome (Raised (KeyError "id")) w6
      [Issued load_credentials; Issued (build "youtube" "v3" cred);
       Issued (videos yt); Issued (MediaFileUpload video_path);
       Issued (insert_request res media); Issued (execute req)].
Proof.
  intros Hp H5 H6 Hd.
  rewrite (upload_prepared W h _ _ _ _ w0 w4 cred yt res media Hp).
  unfold answers in H5, H6. rewrite H5, H6.
  cbn [py_getitem]. rewrite Hd. reflexivity.
Qed.

(** X14. An executed request whose response is not an object at all (null,
    a string, a list) makes line 30 raise [TypeError]. *)
Theorem youtube_response_not_object_raises
    (w0 w4 w5 w6 : W) (cred yt res media req : pyobj) (response : pyval) :
  prepared h video_path credentials_json w0 cred yt res media w4 ->
  answers h w4 (insert_request res media) req w5 ->
  answers h w5 (execute req) response w6 ->
  (forall d, response <> PDict d) ->
  result_of (run h upload w0) = Raised TypeError /\
  inserts (trace_of (run h upload w0)) =
    [{| req_resource := res; req_part := "snippet,status";
        req_body := upload_body title description;
        req_media_body := media |}].
Proof.
  intros Hp H5 H6 Hr.
  rewrite (upload_prepared W h _ _ _ _ w0 w4 cred yt res media Hp).
  unfold answers in H5, H6. rewrite H5, H6.
  destruct response; try (split; reflexivity).
  destruct (Hr items eq_refl).
Qed.

(** X15. The call returns only after the upload was executed: if it returns
    [v], all six calls were made and answered, and [v] is the [id] of the
    response to the executed request. *)
Theorem youtube_returns_only_when_executed (w0 : W) (v : pyval) :
  result_of (run h upload w0) = Returned v ->
  exists w4 w5 w6 cred yt res media req d,
    prepared h video_path credentials_json w0 cred yt res media w4 /\
    answers h w4 (insert_request res media) req w5 /\
    answers h w5 (execute req) (PDict d) w6 /\
    dict_get d "id" = Some v /\
    world_of (run h upload w0) = w6.
Proof.
  destruct (h _ load_credentials w0) as [[cred | e] w1] eqn:H1;
    [|unfold_youtube; rewrite H1; discriminate].
  destruct (h _ (build "youtube" "v3" cred) w1) as [[yt | e] w2] eqn:H2;
    [|unfold_youtube; rewrite H1; cbn [run bind call lift]; rewrite H2;
      discriminate].
  destruct (h _ (videos yt) w2) as [[res | e] w3] eqn:H3;
    [|unfold_youtube; rewrite H1; cbn [run bind call lift]; rewrite H2;
      cbn [run bind call lift]; rewrite H3; discriminate].
  destruct (h _ (MediaFileUpload video_path) w3) as [[media | e] w4] eqn:H4;
    [|unfold_youtube; rewrite H1; cbn [run bind call lift]; rewrite H2;
      cbn [run bind call lift]; rewrite H3; cbn [run bind call lift];
      rewrite H4; discriminate].
  assert (Hp : prepared h video_path credentials_json w0 cred yt res media w4).
  { exists w1, w2, w3. auto. }
  rewrite (upload_prepared W h _ _ _ _ w0 w4 cred yt res media Hp).
  destruct (h _ (insert_request res media) w4) as [[req | e] w5] eqn:H5;
    [|discriminate].
  destruct (h _ (execute req) w5) as [[response | e] w6] eqn:H6;
    [|discriminate].
  cbn [after result_of world_of]. unfold py_getitem.
  destruct response; try discriminate.
  destruct (dict_get items "id") as [x|] eqn:Hd; [|discriminate].
  intros Hr. injection Hr as ->.
  exists w4, w5, w6, cred, yt, res, media, req, items. auto.
Qed.

End YouTubeEdges.

Lemma youtube_credential_failure_propagates_witness :
  run google (upload_to_youtube "clip.mp4" "Goal" "Minute 90" "key.json")
      {| files := ["clip.mp4"]; next_obj := 0;
              api_answer := Returned (PDict [("id", PStr "dQw4")]) |} =
    Outcome (Raised (External "FileNotFoundError"))
      {| files := ["clip.mp4"]; next_obj := 0;
              api_answer := Returned (PDict [("id", PStr "dQw4")]) |}
      [Issued (from_service_account_file "key.json" [upload_scope])].
Proof.
  apply (youtube_credential_failure_propagates _ google
           "clip.mp4" "Goal" "Minute 90" "key.json"
           {| files := ["clip.mp4"]; next_obj := 0;
              api_answer := Returned (PDict [("id", PStr "dQw4")]) |}
           {| files := ["clip.mp4"]; next_obj := 0;
              api_answer := Returned (PDict [("id", PStr "dQw4")]) |}
           (External "FileNotFoundError")).
  reflexivity.
Defined.

Lemma youtube_media_failure_propagates_witness :
  run google (upload_to_youtube "clip.mp4" "Goal" "Minute 90" "key.json")
      {| files := ["key.json"]; next_obj := 0;
              api_answer := Returned (PDict [("id", PStr "dQw4")]) |} =
    Outcome (Raised (External "FileNotFoundError"))
      {| files := ["key.json"]; next_obj := 3;
              api_answer := Returned (PDict [("id", PStr "dQw4")]) |}
      [Issued (from_service_account_file "key.json" [upload_scope]);
       Issued (build "youtube" "v3" (Obj 0));
       Issued (videos (Obj 1));
       Issued (MediaFileUpload "clip.mp4")] /\
  inserts (trace_of (run google (upload_to_youtube "clip.mp4" "Goal" "Minute 90" "key.json")
      {| files := ["key.json"]; next_obj := 0;
              api_answer := Returned (PDict [("id", PStr "dQw4")]) |})) = [].
Proof.
  apply (youtube_media_failure_propagates _ google
           "clip.mp4" "Goal" "Minute 90" "key.json"
           {| files := ["key.json"]; next_obj := 0;
              api_answer := Returned (PDict [("id", PStr "dQw4")]) |}
           {| files := ["key.json"]; next_obj := 1;
              api_answer := Returned (PDict [("id", PStr "dQw4")]) |}
           {| files := ["key.json"]; next_obj := 2;
              api_answer := Returned (PDict [("id", PStr "dQw4")]) |}
           {| files := ["key.json"]; next_obj := 3;
              api_answer := Returned (PDict [("id", PStr "dQw4")]) |}
           {| files := ["key.json"]; next_obj := 3;
              api_answer := Returned (PDict [("id", PStr "dQw4")]) |}
           (Obj 0) (Obj 1) (Obj 2) (External "FileNotFoundError"));
    reflexivity.
Defined.

Lemma youtube_execute_failure_propagates_witness :
  run google (upload_to_youtube "clip.mp4" "Goal" "Minute 90" "key.json")
      {| files := ["key.json"; "clip.mp4"]; next_obj := 0;
              api_answer := Raised (External "HttpError") |} =
    Outcome (Raised (External "HttpError"))
      {| files := ["key.json"; "clip.mp4"]; next_obj := 5;
              api_answer := Raised (External "HttpError") |}
      [Issued (from_service_account_file "key.json" [upload_scope]);
       Issued (build "youtube" "v3" (Obj 0));
       Issued (videos (Obj 1));
       Issued (MediaFileUpload "clip.mp4");
       Issued (insert (Obj 2) "snippet,status"
                 (upload_body "Goal" "Minute 90") (Obj 3));
       Issued (execute (Obj 4))].
Proof.
  apply (youtube_execute_failure_propagates _ google
           "clip.mp4" "Goal" "Minute 90" "key.json"
           {| files := ["key.json"; "clip.mp4"]; next_obj := 0;
              api_answer := Raised (External "HttpError") |}
           {| files := ["key.json"; "clip.mp4"]; next_obj := 4;
              api_answer := Raised (External "HttpError") |}
           {| files := ["key.json"; "clip.mp4"]; next_obj := 5;
              api_answer := Raised (External "HttpError") |}
           {| files := ["key.json"; "clip.mp4"]; next_obj := 5;
              api_answer := Raised (External "HttpError") |}
           (Obj 0) (Obj 1) (Obj 2) (Obj 3) (Obj 4) (External "HttpError"));
    try reflexivity.
  do 3 eexists. repeat split; reflexivity.
Defined.

Lemma youtube_response_without_id_raises_witness :
  run google (upload_to_youtube "clip.mp4" "Goal" "Minute 90" "key.json")
      {| files := ["key.json"; "clip.mp4"]; next_obj := 0;
              api_answer := Returned (PDict [("kind", PStr "youtube#video")]) |} =
    Outcome (Raised (KeyError "id"))
      {| files := ["key.json"; "clip.mp4"]; next_obj := 5;
              api_answer := Returned (PDict [("kind", PStr "youtube#video")]) |}
      [Issued (from_service_account_file "key.json" [upload_scope]);
       Issued (build "youtube" "v3" (Obj 0));
       Issued (videos (Obj 1));
       Issued (MediaFileUpload "clip.mp4");
       Issued (insert (Obj 2) "snippet,status"
                 (upload_body "Goal" "Minute 90") (Obj 3));
       Issued (execute (Obj 4))].
Proof.
  apply (youtube_response_without_id_raises _ google
           "clip.mp4" "Goal" "Minute 90" "key.json"
           {| files := ["key.json"; "clip.mp4"]; next_obj := 0;
              api_answer := Returned (PDict [("kind", PStr "youtube#video")]) |}
           {| files := ["key.json"; "clip.mp4"]; next_obj := 4;
              api_answer := Returned (PDict [("kind", PStr "youtube#video")]) |}
           {| files := ["key.json"; "clip.mp4"]; next_obj := 5;
              api_answer := Returned (PDict [("kind", PStr "youtube#video")]) |}
           {| files := ["key.json"; "clip.mp4"]; next_obj := 5;
              api_answer := Returned (PDict [("kind", PStr "youtube#video")]) |}
           (Obj 0) (Obj 1) (Obj 2) (Obj 3) (Obj 4)
           [("kind", PStr "youtube#video")]);
    try reflexivity.
  do 3 eexists. repeat split; reflexivity.
Defined.

Lemma youtube_response_not_object_raises_witness :
  result_of (run google (upload_to_youtube "clip.mp4" "Goal" "Minute 90" "key.json")
      {| files := ["key.json"; "clip.mp4"]; next_obj := 0;
              api_answer := Returned PNone |}) = Raised TypeError /\
  inserts (trace_of (run google (upload_to_youtube "clip.mp4" "Goal" "Minute 90" "key.json")
      {| files := ["key.json"; "clip.mp4"]; next_obj := 0;
              api_answer := Returned PNone |})) =
    [{| req_resource := Obj 2; req_part := "snippet,status";
        req_body := upload_body "Goal" "Minute 90";
        req_media_body := Obj 3 |}].
Proof.
  apply (youtube_response_not_object_raises _ google
           "clip.mp4" "Goal" "Minute 90" "key.json"
           {| files := ["key.json"; "clip.mp4"]; next_obj := 0;
              api_answer := Returned PNone |}
           {| files := ["key.json"; "clip.mp4"]; next_obj := 4;
              api_answer := Returned PNone |}
           {| files := ["key.json"; "clip.mp4"]; next_obj := 5;
              api_answer := Returned PNone |}
           {| files := ["key.json"; "clip.mp4"]; next_obj := 5;
              api_answer := Returned PNone |}
           (Obj 0) (Obj 1) (Obj 2) (Obj 3) (Obj 4) PNone);
    try reflexivity.
  - do 3 eexists. repeat split; reflexivity.
  - intros d. discriminate.
Defined.

Lemma youtube_returns_only_when_executed_witness :
  exists w4 w5 w6 cred yt res media req d,
    prepared google "clip.mp4" "key.json"
      {| files := ["key.json"; "clip.mp4"]; next_obj := 0;
              api_answer := Returned (PDict [("id", PStr "dQw4")]) |}
      cred yt res media w4 /\
    answers google w4
      (insert res "snippet,status" (upload_body "Goal" "Minute 90") media)
      req w5 /\
    answers google w5 (execute req) (PDict d) w6 /\
    dict_get d "id" = Some (PStr "dQw4") /\
    world_of (run google (upload_to_youtube "clip.mp4" "Goal" "Minute 90" "key.json")
      {| files := ["key.json"; "clip.mp4"]; next_obj := 0;
              api_answer := Returned (PDict [("id", PStr "dQw4")]) |}) = w6.
Proof.
  apply (youtube_returns_only_when_executed _ google
           "clip.mp4" "Goal" "Minute 90" "key.json"
           {| files := ["key.json"; "clip.mp4"]; next_obj := 0;
              api_answer := Returned (PDict [("id", PStr "dQw4")]) |}
           (PStr "dQw4")).
  reflexivity.
Defined.

(** ** Everything the two calls can raise *)

(** X16. [upload_to_instagram] wraps nothing: what it raises is what a POST
    raised, or what [res.json()] raised on the creation response or on a
    publish response of status 200, or the [AttributeError] of [.get], or
    one of its two labelled exceptions, each carrying the raw body of the
    response that caused it. *)
Theorem instagram_raises_only
    (W : Type) (h : forall X : Type, requestsE X -> W -> result X * W)
    (video_path access_token ig_user_id : string) (w0 : W) (e : exn) :
  result_of (run h (upload_to_instagram video_path access_token ig_user_id)
                 w0) = Raised e ->
  (exists (ev : requestsE Response) w w' pre,
     h _ ev w = (Raised e, w') /\
     trace_of (run h (upload_to_instagram video_path access_token ig_user_id)
                   w0) = (pre ++ [Issued ev])%list) \/
  (exists res1 w1,
     answers h w0 (creation_request video_path access_token ig_user_id)
             res1 w1 /\
     json res1 = Raised e) \/
  (exists res2 cid w1 w2,
     answers h w1 (publish_request cid access_token ig_user_id) res2 w2 /\
     status_code res2 = 200 /\
     json res2 = Raised e) \/
  e = AttributeError "get" \/
  (exists res1 w1,
     answers h w0 (creation_request video_path access_token ig_user_id)
             res1 w1 /\
     e = Exception [PStr "Error creating container"; PStr (text res1)]) \/
  (exists res2 cid w1 w2,
     answers h w1 (publish_request cid access_token ig_user_id) res2 w2 /\
     status_code res2 <> 200 /\
     e = Exception [PStr "Error publishing video"; PStr (text res2)]).
Proof.
  destruct (h _ (creation_request video_path access_token ig_user_id) w0)
    as [[res1 | e1] w1] eqn:H1.
  - destruct (container_id_of res1) as [cid | e1] eqn:Hc.
    + destruct (truthy cid) eqn:Ht.
      * rewrite (upload_container W h _ _ _ w0 w1 res1 cid H1 Hc Ht).
        destruct (h _ (publish_request cid access_token ig_user_id) w1)
          as [[res2 | e2] w2] eqn:H2.
        -- destruct (status_code res2 =? 200) eqn:Hs.
           ++ unfold response_json.
              destruct (json res2) as [j | e2] eqn:Hj; [discriminate|].
              cbn [after result_of]. intros Hr. injection Hr as <-.
              apply Z.eqb_eq in Hs.
              do 2 right. left. exists res2, cid, w1, w2. auto.
           ++ cbn [after result_of]. intros Hr. injection Hr as <-.
              apply Z.eqb_neq in Hs.
              do 5 right. exists res2, cid, w1, w2. auto.
        -- cbn [after result_of trace_of]. intros Hr. injection Hr as <-.
           left. eexists _, w1, w2, [_]. split; [exact H2 | reflexivity].
      * rewrite (upload_no_container W h _ _ _ w0 w1 res1 cid H1 Hc Ht).
        cbn [result_of]. intros Hr. injection Hr as <-.
        do 4 right. left. exists res1, w1. auto.
    + rewrite (upload_lookup_raises W h _ _ _ w0 w1 res1 e1 H1 Hc).
      cbn [result_of]. intros Hr. injection Hr as <-.
      unfold container_id_of, response_json in Hc.
      destruct (json res1) as [v | e2] eqn:Hj.
      * destruct v; simpl in Hc; try (injection Hc as <-; auto 6; fail).
        destruct (dict_get items "id"); discriminate.
      * injection Hc as <-. right. left. exists res1, w1. auto.
  - rewrite (upload_creation_transport W h _ _ _ w0 w1 e1 H1).
    cbn [result_of trace_of]. intros Hr. injection Hr as <-.
    left. eexists _, w0, w1, []. split; [exact H1 | reflexivity].
Qed.

Lemma instagram_raises_only_witness :
  (exists (ev : requestsE Response) w w' pre,
     scripted _ ev w = (Raised ValueError, w') /\
     trace_of
       (run scripted
          (upload_to_instagram "https://cdn.example/clip.mp4" "token" "1784")
          [Returned (ok_response 200 "id" "17895");
           Returned long_integer_response]) = (pre ++ [Issued ev])%list) \/
  (exists res1 w1,
     answers scripted
       [Returned (ok_response 200 "id" "17895");
        Returned long_integer_response]
       (creation_request "https://cdn.example/clip.mp4" "token" "1784")
       res1 w1 /\
     json res1 = Raised ValueError) \/
  (exists res2 cid w1 w2,
     answers scripted w1 (publish_request cid "token" "1784") res2 w2 /\
     status_code res2 = 200 /\
     json res2 = Raised ValueError) \/
  ValueError = AttributeError "get" \/
  (exists res1 w1,
     answers scripted
       [Returned (ok_response 200 "id" "17895");
        Returned long_integer_response]
       (creation_request "https://cdn.example/clip.mp4" "token" "1784")
       res1 w1 /\
     ValueError =
       Exception [PStr "Error creating container"; PStr (text res1)]) \/
  (exists res2 cid w1 w2,
     answers scripted w1 (publish_request cid "token" "1784") res2 w2 /\
     status_code res2 <> 200 /\
     ValueError =
       Exception [PStr "Error publishing video"; PStr (text res2)]).
Proof.
  apply (instagram_raises_only _ scripted
           "https://cdn.example/clip.mp4" "token" "1784"
           [Returned (ok_response 200 "id" "17895");
            Returned long_integer_response]
           ValueError).
  reflexivity.
Defined.

(** X17. [upload_to_youtube] wraps nothing: what it raises is what a library
    call raised, that call being the last of the run, or the [KeyError] or
    [TypeError] of the lookup of line 30. *)
Theorem youtube_raises_only
    (W : Type) (h : forall X : Type, googleE X -> W -> result X * W)
    (video_path title description credentials_json : string)
    (w0 : W) (e : exn) :
  result_of (run h (upload_to_youtube video_path title description
                      credentials_json) w0) = Raised e ->
  (exists X (ev : googleE X) w w' pre,
     h X ev w = (Raised e, w') /\
     trace_of (run h (upload_to_youtube video_path title description
                        credentials_json) w0) = (pre ++ [Issued ev])%list) \/
  e = KeyError "id" \/
  e = TypeError.
Proof.
  unfold upload_to_youtube. cbn [run bind call lift].
  destruct (h pyobj _ w0) as [[cred | e1] w1] eqn:H1;
    [|cbn [result_of trace_of]; intros Hr; injection Hr as <-; left;
      eexists _, _, w0, w1, []; split; [exact H1 | reflexivity]].
  cbn [run bind call lift].
  destruct (h pyobj _ w1) as [[yt | e1] w2] eqn:H2;
    [|cbn [after result_of trace_of]; intros Hr; injection Hr as <-; left;
      eexists _, _, w1, w2, [_]; split; [exact H2 | reflexivity]].
  cbn [run bind call lift].
  destruct (h pyobj _ w2) as [[res | e1] w3] eqn:H3;
    [|cbn [after result_of trace_of]; intros Hr; injection Hr as <-; left;
      eexists _, _, w2, w3, [_; _]; split; [exact H3 | reflexivity]].
  cbn [run bind call lift].
  destruct (h pyobj _ w3) as [[media | e1] w4] eqn:H4;
    [|cbn [after result_of trace_of]; intros Hr; injection Hr as <-; left;
      eexists _, _, w3, w4, [_; _; _]; split; [exact H4 | reflexivity]].
  cbn [run bind call lift].
  destruct (h pyobj _ w4) as [[req | e1] w5] eqn:H5;
    [|cbn [after result_of trace_of]; intros Hr; injection Hr as <-; left;
      eexists _, _, w4, w5, [_; _; _; _]; split; [exact H5 | reflexivity]].
  cbn [run bind call lift].
  destruct (h pyval _ w5) as [[response | e1] w6] eqn:H6;
    [|cbn [after result_of trace_of]; intros Hr; injection Hr as <-; left;
      eexists _, _, w5, w6, [_; _; _; _; _]; split;
      [exact H6 | reflexivity]].
  unfold py_getitem.
  destruct response; cbn [lift run after result_of];
    try (intros Hr; injection Hr as <-; auto; fail).
  destruct (dict_get items "id"); cbn [lift run after result_of];
    [discriminate|]. intros Hr. injection Hr as <-. auto.
Qed.

Lemma youtube_raises_only_witness :
  (exists X (ev : googleE X) w w' pre,
     google X ev w = (Raised (External "HttpError"), w') /\
     trace_of
       (run google (upload_to_youtube "clip.mp4" "Goal" "Minute 90" "key.json")
          {| files := ["key.json"; "clip.mp4"]; next_obj := 0;
             api_answer := Raised (External "HttpError") |}) =
       (pre ++ [Issued ev])%list) \/
  External "HttpError" = KeyError "id" \/
  External "HttpError" = TypeError.
Proof.
  apply (youtube_raises_only _ google
           "clip.mp4" "Goal" "Minute 90" "key.json"
           {| files := ["key.json"; "clip.mp4"]; next_obj := 0;
              api_answer := Raised (External "HttpError") |}
           (External "HttpError")).
  reflexivity.
Defined.
